(** * A to-do list application: the request handlers of [todos/views.py]

    The application keeps one table of [Todo] rows and answers five
    routes: the list, the create form, the update form, the delete
    confirmation and the toggle action.  The handlers of [views.py] are
    embedded as functions in a small state-and-exception monad over the
    table; the generic class-based views they configure are written out
    once and instantiated with the class attributes of the source. *)

From Stdlib Require Import ZArith Lia Ascii String.
From stdpp Require Import base option gmap strings list sorting.

Local Open Scope string_scope.
Local Open Scope Z_scope.

(** ** Text helpers

    Submitted form values are text.  A [string] holds the UTF-8 bytes of
    the text: a code point below 128 is one byte, any other is a lead
    byte followed by continuation bytes (128..191).  The form fields trim
    surrounding white space, count code points and compare lower-cased
    text; each is written out here over the bytes. *)

Definition code (a : ascii) : N := Ascii.N_of_ascii a.

(** [str.isspace] on the code points of one byte: tab, line feed,
    vertical tab, form feed, carriage return, the four separators 28..31
    and the blank. *)
Definition isspace (a : ascii) : bool :=
  ((9 <=? code a) && (code a <=? 13) || (28 <=? code a) && (code a <=? 32))%N.

(** [str.isspace] on the code points of two bytes: U+0085 and U+00A0. *)
Definition isspace2 (a b : ascii) : bool :=
  ((code a =? 194) && ((code b =? 133) || (code b =? 160)))%N.

(** [str.isspace] on the code points of three bytes: U+1680,
    U+2000..U+200A, U+2028, U+2029, U+202F, U+205F and U+3000.  No code
    point of four bytes is white space. *)
Definition isspace3 (a b c : ascii) : bool :=
  ((code a =? 225) && (code b =? 154) && (code c =? 128)
   || (code a =? 226) && (code b =? 128)
      && ((128 <=? code c) && (code c <=? 138)
          || (code c =? 168) || (code c =? 169) || (code c =? 175))
   || (code a =? 226) && (code b =? 129) && (code c =? 159)
   || (code a =? 227) && (code b =? 128) && (code c =? 128))%N.

(** Drop the white space the text starts with. *)
Fixpoint lstrip (s : string) : string :=
  match s with
  | EmptyString => EmptyString
  | String a s1 =>
      if isspace a then lstrip s1
      else match s1 with
           | EmptyString => s
           | String b s2 =>
               if isspace2 a b then lstrip s2
               else match s2 with
                    | EmptyString => s
                    | String c s3 => if isspace3 a b c then lstrip s3 else s
                    end
           end
  end.

(** The same on the reversed bytes of a text, where a code point shows
    its last byte first. *)
Fixpoint lstrip_reversed (s : string) : string :=
  match s with
  | EmptyString => EmptyString
  | String a s1 =>
      if isspace a then lstrip_reversed s1
      else match s1 with
           | EmptyString => s
           | String b s2 =>
               if isspace2 b a then lstrip_reversed s2
               else match s2 with
                    | EmptyString => s
                    | String c s3 =>
                        if isspace3 c b a then lstrip_reversed s3 else s
                    end
           end
  end.

(** [str.strip()] *)
Definition strip (s : string) : string :=
  String.rev (lstrip_reversed (String.rev (lstrip s))).

(** [len]: the number of code points, that is of the bytes that are not
    continuation bytes. *)
Fixpoint len (s : string) : nat :=
  match s with
  | EmptyString => 0%nat
  | String a s' =>
      if ((128 <=? code a) && (code a <=? 191))%N then len s' else S (len s')
  end.

Definition lower_ascii (a : ascii) : ascii :=
  if ((65 <=? code a) && (code a <=? 90))%N
  then Ascii.ascii_of_N (code a + 32) else a.

(** [str.lower()] on the letters A..Z; the other bytes are kept.  It is
    used only to compare with the word false, and no code point outside
    A..Z has one of the letters of that word as its lower case. *)
Fixpoint lower (s : string) : string :=
  match s with
  | EmptyString => EmptyString
  | String a s' => String (lower_ascii a) (lower s')
  end.

Fixpoint has_null (s : string) : bool :=
  match s with
  | EmptyString => false
  | String a s' => (code a =? 0)%N || has_null s'
  end.

(** ** The data model *)

(** Modelled from the spec: the [Todo] model of [models.py], which is not
    among the sources.  It has a required short [title], an optional
    [description] that defaults to the empty text, an optional
    [due_date], a [resolved] flag that defaults to false and the two
    timestamps the system manages.  A date is kept as its day number. *)
Record Todo : Type := mkTodo {
  title : string;
  description : string;
  due_date : option Z;
  resolved : bool;
  created_at : Z;
  updated_at : Z
}.

Global Instance Todo_eq_dec : EqDecision Todo.
Proof. solve_decision. Defined.

Definition set_resolved (b : bool) (t : Todo) : Todo :=
  {| title := title t; description := description t; due_date := due_date t;
     resolved := b; created_at := created_at t; updated_at := updated_at t |}.

Definition set_updated_at (now : Z) (t : Todo) : Todo :=
  {| title := title t; description := description t; due_date := due_date t;
     resolved := resolved t; created_at := created_at t; updated_at := now |}.

Definition set_created_at (now : Z) (t : Todo) : Todo :=
  {| title := title t; description := description t; due_date := due_date t;
     resolved := resolved t; created_at := now; updated_at := updated_at t |}.

(** Both timestamps of a row that is inserted are the time of insertion. *)
Definition stamp (now : Z) (todo : Todo) : Todo :=
  set_created_at now (set_updated_at now todo).

(** Modelled from the spec: a fresh, unsaved [Todo()] carries the field
    defaults of [models.py]; its timestamps are filled in when the row is
    inserted. *)
Definition Todo_new : Todo :=
  {| title := ""; description := ""; due_date := None; resolved := false;
     created_at := 0; updated_at := 0 |}.

(** The table: rows by primary key, and the key the next insert gets. *)
Record Database : Type := mkDatabase {
  rows : gmap Z Todo;
  next_pk : Z
}.

Definition empty_db : Database := {| rows := ∅; next_pk := 1 |}.

(** Keys are handed out in increasing order, so every stored key lies
    below the next one. *)
Definition db_wf (db : Database) : Prop :=
  ∀ pk, is_Some (rows db !! pk) → pk < next_pk db.

(** ** Requests and responses *)

(** The two request methods the routes are served with: a GET shows a
    page or a form, a POST submits one. *)
Inductive Method : Type := GET | POST.

Global Instance Method_eq_dec : EqDecision Method.
Proof. solve_decision. Defined.

Record HttpRequest : Type := mkRequest {
  method : Method;
  data : gmap string string
}.

(** Modelled from the spec: the route names of [urls.py], which is not
    among the sources; [tests.py] reverses exactly these five. *)
Inductive UrlName : Type :=
| todo_list
| todo_create
| todo_update (pk : Z)
| todo_delete (pk : Z)
| todo_toggle (pk : Z).

Inductive Context : Type :=
| ctx_todos (todos : list (Z * Todo))
| ctx_form (object : option (Z * Todo)) (bound : bool)
| ctx_object (object : Z * Todo).

Inductive HttpResponse : Type :=
| TemplateResponse (template_name : string) (context : Context)
| HttpResponseRedirect (url : UrlName)
| HttpResponseNotFound
| HttpResponseNotAllowed.

Definition status_code (r : HttpResponse) : Z :=
  match r with
  | TemplateResponse _ _ => 200
  | HttpResponseRedirect _ => 302
  | HttpResponseNotFound => 404
  | HttpResponseNotAllowed => 405
  end.

(** ** The monad of a view: the table is threaded through, and a lookup
    may raise [Http404]. *)

Inductive outcome (A : Type) : Type :=
| Return (a : A)
| Http404.
Arguments Return {A} a.
Arguments Http404 {A}.

Definition View (A : Type) : Type := Database → outcome A * Database.

Global Instance View_ret : MRet View := λ A a db, (Return a, db).

Global Instance View_bind : MBind View := λ A B f m db,
  match m db with
  | (Return a, db') => f a db'
  | (Http404, db') => (Http404, db')
  end.

Definition get_object_or_404 (pk : Z) : View Todo := λ db,
  match rows db !! pk with
  | Some todo => (Return todo, db)
  | None => (Http404, db)
  end.

(** [todo.save()] on a loaded row writes it back under its key and
    refreshes [updated_at]. *)
Definition save (now : Z) (pk : Z) (todo : Todo) : View unit := λ db,
  (Return tt,
   {| rows := <[pk := set_updated_at now todo]> (rows db);
      next_pk := next_pk db |}).

(** Saving an unsaved instance inserts it under the next key and stamps
    both timestamps. *)
Definition create (now : Z) (todo : Todo) : View Z := λ db,
  let pk := next_pk db in
  (Return pk,
   {| rows := <[pk := stamp now todo]> (rows db);
      next_pk := pk + 1 |}).

Definition delete_row (pk : Z) : View unit := λ db,
  (Return tt, {| rows := delete pk (rows db); next_pk := next_pk db |}).

Definition redirect (to : UrlName) : HttpResponse := HttpResponseRedirect to.

(** ** [toggle_resolved] *)

Definition toggle_resolved (now : Z) (request : HttpRequest) (pk : Z)
  : View HttpResponse :=
  todo ← get_object_or_404 pk;
  let todo := set_resolved (negb (resolved todo)) todo in
  save now pk todo;;
  mret (redirect todo_list).

(** ** Sample data, after the fixtures of [tests.py] *)

Definition sample_todo : Todo :=
  {| title := "Toggle Test"; description := ""; due_date := None;
     resolved := false; created_at := 10; updated_at := 10 |}.

Definition sample_db : Database :=
  {| rows := {[1 := sample_todo]}; next_pk := 2 |}.

Definition get_request : HttpRequest := {| method := GET; data := ∅ |}.

Definition post_empty : HttpRequest := {| method := POST; data := ∅ |}.

Definition post_no_title : HttpRequest :=
  {| method := POST; data := {["description" := "No title"]} |}.

Definition post_minimal : HttpRequest :=
  {| method := POST; data := {["title" := "Minimal TODO"]} |}.

Definition post_resolved : HttpRequest :=
  {| method := POST;
     data := <["resolved" := "True"]> {["title" := "New TODO"]} |}.

(** Three rows whose keys run against their creation times, after
    [test_todo_ordering]. *)
Definition ordering_db : Database :=
  {| rows :=
       <[3 := {| title := "Third"; description := ""; due_date := None;
                 resolved := false; created_at := 20; updated_at := 20 |}]>
       (<[2 := {| title := "Second"; description := ""; due_date := None;
                  resolved := false; created_at := 30; updated_at := 30 |}]>
        {[1 := {| title := "First"; description := ""; due_date := None;
                  resolved := false; created_at := 10; updated_at := 10 |}]});
     next_pk := 4 |}.

(** The no-break space U+00A0 and the em space U+2003, as their bytes. *)
Definition nbsp : string :=
  String (Ascii.ascii_of_N 194) (String (Ascii.ascii_of_N 160) EmptyString).

Definition em_space : string :=
  String (Ascii.ascii_of_N 226)
    (String (Ascii.ascii_of_N 128)
       (String (Ascii.ascii_of_N 131) EmptyString)).

(** A title wrapped in white space that is not ASCII. *)
Definition post_padded : HttpRequest :=
  {| method := POST;
     data := <["resolved" := "True"]>
             {["title" := String.app nbsp (String.app "hi" em_space)]} |}.

Definition post_minimal_checked : HttpRequest :=
  {| method := POST;
     data := <["resolved" := "True"]> {["title" := "Minimal TODO"]} |}.

(** A reading of dates that knows one day, 2026-01-01, by its day number. *)
Definition sample_parse_date (s : string) : option Z :=
  if decide (s = "2026-01-01") then Some 739617 else None.

(** ** The default ordering of the model *)

(** Modelled from the spec: the ordering declared by the model in
    [models.py], which is not among the sources: newest first by
    [created_at]. *)
Definition newest_first (a b : Z * Todo) : Prop :=
  created_at (snd b) ≤ created_at (snd a).

Global Instance newest_first_dec : RelDecision newest_first.
Proof. intros a b. unfold newest_first. apply _. Defined.

Global Instance newest_first_total : Total newest_first.
Proof. intros a b. unfold newest_first. lia. Qed.

Global Instance newest_first_trans : Transitive newest_first.
Proof. intros a b c. unfold newest_first. lia. Qed.

(** [Todo.objects.all()]: every stored row, in the default ordering. *)
Definition objects_all (db : Database) : list (Z * Todo) :=
  merge_sort newest_first (map_to_list (rows db)).

(** ** Form fields and the generic views *)

Section Application.

(** What [models.py] fixes and the sources do not show: the length
    bound of the short [title], whether [description] declares an
    explicit default, and the framework's reading of a date from the
    text of a form value. *)
Variable title_max_length : nat.
Variable description_has_default : bool.
Variable parse_date : string → option Z.

(** A text field: the value is trimmed; an empty value fails a required
    field; a value holding a null character or exceeding the length
    bound fails. *)
Definition CharField_clean (required : bool) (max_length : option nat)
    (raw : option string) : option string :=
  let value := strip (default "" raw) in
  if decide (value = "") then (if required then None else Some "")
  else if has_null value then None
  else match max_length with
       | Some n =>
           if decide (n < len value)%nat then None else Some value
       | None => Some value
       end.

(** A date field that may stay empty. *)
Definition DateField_clean (raw : option string) : option (option Z) :=
  match raw with
  | None => Some None
  | Some s =>
      if decide (s = "") then Some None
      else match parse_date s with
           | Some d => Some (Some d)
           | None => None
           end
  end.

(** A check box: absent or empty is false, the text "false" in any case
    is false, any other text is true. *)
Definition BooleanField_clean (raw : option string) : bool :=
  match raw with
  | None => false
  | Some s =>
      if decide (lower s = "false") then false
      else if decide (s = "") then false else true
  end.

(** The model form over the listed [fields]: [None] when the submitted
    data does not validate, otherwise the instance with the listed
    fields assigned from the cleaned data.  Fields outside the list
    keep the value of the instance. *)
Definition ModelForm (fields : list string) (post : gmap string string)
    (instance : Todo) : option Todo :=
  t ← (if bool_decide ("title" ∈ fields)
       then CharField_clean true (Some title_max_length) (post !! "title")
       else Some (title instance));
  d ← (if bool_decide ("description" ∈ fields)
       then c ← CharField_clean false None (post !! "description");
            Some (if description_has_default
                     && bool_decide (post !! "description" = None)
                  then description instance else c)
       else Some (description instance));
  dd ← (if bool_decide ("due_date" ∈ fields)
        then DateField_clean (post !! "due_date")
        else Some (due_date instance));
  let r := if bool_decide ("resolved" ∈ fields)
           then BooleanField_clean (post !! "resolved")
           else resolved instance in
  Some {| title := t; description := d; due_date := dd; resolved := r;
          created_at := created_at instance;
          updated_at := updated_at instance |}.

(** The instance the form holds after cleaning, valid or not: each
    listed field whose value validated is assigned, a field that failed
    keeps the value of the instance.  The update view shows this
    instance again when the submission is rejected. *)
Definition form_instance (fields : list string) (post : gmap string string)
    (instance : Todo) : Todo :=
  {| title :=
       if bool_decide ("title" ∈ fields)
       then default (title instance)
              (CharField_clean true (Some title_max_length) (post !! "title"))
       else title instance;
     description :=
       if bool_decide ("description" ∈ fields)
       then match CharField_clean false None (post !! "description") with
            | Some c =>
                if description_has_default
                   && bool_decide (post !! "description" = None)
                then description instance else c
            | None => description instance
            end
       else description instance;
     due_date :=
       if bool_decide ("due_date" ∈ fields)
       then default (due_date instance) (DateField_clean (post !! "due_date"))
       else due_date instance;
     resolved :=
       if bool_decide ("resolved" ∈ fields)
       then BooleanField_clean (post !! "resolved")
       else resolved instance;
     created_at := created_at instance;
     updated_at := updated_at instance |}.

Definition ListView (template_name : string) (request : HttpRequest)
  : View HttpResponse := λ db,
  match method request with
  | GET => (Return (TemplateResponse template_name (ctx_todos (objects_all db))), db)
  | POST => (Return HttpResponseNotAllowed, db)
  end.

Definition CreateView (template_name : string) (fields : list string)
    (success_url : UrlName) (now : Z) (request : HttpRequest)
  : View HttpResponse :=
  match method request with
  | GET => mret (TemplateResponse template_name (ctx_form None false))
  | POST =>
      match ModelForm fields (data request) Todo_new with
      | Some object =>
          create now object;;
          mret (HttpResponseRedirect success_url)
      | None => mret (TemplateResponse template_name (ctx_form None true))
      end
  end.

Definition UpdateView (template_name : string) (fields : list string)
    (success_url : UrlName) (now : Z) (request : HttpRequest) (pk : Z)
  : View HttpResponse :=
  object ← get_object_or_404 pk;
  match method request with
  | GET =>
      mret (TemplateResponse template_name (ctx_form (Some (pk, object)) false))
  | POST =>
      match ModelForm fields (data request) object with
      | Some object' =>
          save now pk object';;
          mret (HttpResponseRedirect success_url)
      | None =>
          mret (TemplateResponse template_name
                  (ctx_form (Some (pk, form_instance fields (data request) object))
                            true))
      end
  end.

Definition DeleteView (template_name : string) (success_url : UrlName)
    (request : HttpRequest) (pk : Z) : View HttpResponse :=
  object ← get_object_or_404 pk;
  match method request with
  | GET => mret (TemplateResponse template_name (ctx_object (pk, object)))
  | POST =>
      delete_row pk;;
      mret (HttpResponseRedirect success_url)
  end.

(** ** The views of [views.py] *)

Definition TodoListView : HttpRequest → View HttpResponse :=
  ListView "todos/todo_list.html".

Definition TodoCreateView : Z → HttpRequest → View HttpResponse :=
  CreateView "todos/todo_form.html"
             ["title"; "description"; "due_date"] todo_list.

Definition TodoUpdateView : Z → HttpRequest → Z → View HttpResponse :=
  UpdateView "todos/todo_form.html"
             ["title"; "description"; "due_date"; "resolved"] todo_list.

Definition TodoDeleteView : HttpRequest → Z → View HttpResponse :=
  DeleteView "todos/todo_confirm_delete.html" todo_list.

(** ** Serving a request: the route picks the view, and an [Http404]
    that escapes the view becomes the not-found response. *)

Definition resolve (now : Z) (route : UrlName) (request : HttpRequest)
  : View HttpResponse :=
  match route with
  | todo_list => TodoListView request
  | todo_create => TodoCreateView now request
  | todo_update pk => TodoUpdateView now request pk
  | todo_delete pk => TodoDeleteView request pk
  | todo_toggle pk => toggle_resolved now request pk
  end.

Definition serve (now : Z) (route : UrlName) (request : HttpRequest)
    (db : Database) : HttpResponse * Database :=
  match resolve now route request db with
  | (Return response, db') => (response, db')
  | (Http404, db') => (HttpResponseNotFound, db')
  end.

(** The states of the table the application can get into, starting
    from the empty table. *)
Inductive reachable : Database → Prop :=
| reachable_empty : reachable empty_db
| reachable_serve now route request db :
    reachable db → reachable (snd (serve now route request db)).

(** Every stored row has a title. *)
Definition titles_nonempty (db : Database) : Prop :=
  ∀ pk todo, rows db !! pk = Some todo → title todo ≠ "".

(** [form.is_valid()] *)
Definition is_valid (fields : list string) (post : gmap string string)
    (instance : Todo) : Prop :=
  is_Some (ModelForm fields post instance).

(** The answer is the 302 redirect to the list page. *)
Definition redirected_to_list (answer : HttpResponse * Database) : Prop :=
  fst answer = redirect todo_list ∧ status_code (fst answer) = 302.

(** ** What each route does, as equations *)

Lemma serve_list now request db :
  serve now todo_list request db =
  match method request with
  | GET => (TemplateResponse "todos/todo_list.html"
              (ctx_todos (objects_all db)), db)
  | POST => (HttpResponseNotAllowed, db)
  end.
Proof. unfold serve; simpl. unfold TodoListView, ListView. by destruct (method request). Qed.

Lemma serve_create now request db :
  serve now todo_create request db =
  match method request with
  | GET => (TemplateResponse "todos/todo_form.html" (ctx_form None false), db)
  | POST =>
      match ModelForm ["title"; "description"; "due_date"]
              (data request) Todo_new with
      | Some object =>
          (HttpResponseRedirect todo_list,
           {| rows := <[next_pk db := stamp now object]> (rows db);
              next_pk := next_pk db + 1 |})
      | None =>
          (TemplateResponse "todos/todo_form.html" (ctx_form None true), db)
      end
  end.
Proof.
  unfold serve; simpl. unfold TodoCreateView, CreateView.
  destruct (method request); [done|].
  by destruct (ModelForm _ _ _).
Qed.

Lemma serve_update now request pk db :
  serve now (todo_update pk) request db =
  match rows db !! pk with
  | None => (HttpResponseNotFound, db)
  | Some object =>
      match method request with
      | GET => (TemplateResponse "todos/todo_form.html"
                  (ctx_form (Some (pk, object)) false), db)
      | POST =>
          match ModelForm ["title"; "description"; "due_date"; "resolved"]
                  (data request) object with
          | Some object' =>
              (HttpResponseRedirect todo_list,
               {| rows := <[pk := set_updated_at now object']> (rows db);
                  next_pk := next_pk db |})
          | None =>
              (TemplateResponse "todos/todo_form.html"
                 (ctx_form
                    (Some (pk, form_instance
                                 ["title"; "description"; "due_date"; "resolved"]
                                 (data request) object))
                    true), db)
          end
      end
  end.
Proof.
  unfold serve; simpl.
  unfold TodoUpdateView, UpdateView, mbind, View_bind,
    get_object_or_404.
  destruct (rows db !! pk); [|done].
  destruct (method request); [done|].
  by destruct (ModelForm _ _ _).
Qed.

Lemma serve_delete now request pk db :
  serve now (todo_delete pk) request db =
  match rows db !! pk with
  | None => (HttpResponseNotFound, db)
  | Some object =>
      match method request with
      | GET => (TemplateResponse "todos/todo_confirm_delete.html"
                  (ctx_object (pk, object)), db)
      | POST =>
          (HttpResponseRedirect todo_list,
           {| rows := delete pk (rows db); next_pk := next_pk db |})
      end
  end.
Proof.
  unfold serve; simpl.
  unfold TodoDeleteView, DeleteView, mbind, View_bind, get_object_or_404.
  destruct (rows db !! pk); [|done].
  by destruct (method request).
Qed.

Lemma serve_toggle now request pk db :
  serve now (todo_toggle pk) request db =
  match rows db !! pk with
  | None => (HttpResponseNotFound, db)
  | Some todo =>
      (HttpResponseRedirect todo_list,
       {| rows := <[pk := set_updated_at now
                            (set_resolved (negb (resolved todo)) todo)]>
                    (rows db);
          next_pk := next_pk db |})
  end.
Proof.
  unfold serve; simpl.
  unfold toggle_resolved, mbind, View_bind, get_object_or_404.
  by destruct (rows db !! pk).
Qed.

(** ** Form validation *)

Lemma CharField_required_nonempty max_length raw value :
  CharField_clean true max_length raw = Some value → value ≠ "".
Proof.
  unfold CharField_clean. case_decide as Hempty; [done|].
  destruct (has_null _); [done|].
  destruct max_length as [n|]; [case_decide; [done|]|]; by intros [= <-].
Qed.

Lemma CharField_required_missing max_length raw :
  raw = None ∨ raw = Some "" → CharField_clean true max_length raw = None.
Proof. by intros [-> | ->]. Qed.

Lemma resolved_not_a_create_field :
  "resolved" ∉ ["title"; "description"; "due_date"].
Proof. by apply (bool_decide_unpack _). Qed.

(** What a validated form hands back, field by field. *)
Lemma ModelForm_Some fields post instance todo :
  ModelForm fields post instance = Some todo →
  (if bool_decide ("title" ∈ fields)
   then CharField_clean true (Some title_max_length) (post !! "title")
        = Some (title todo)
   else title todo = title instance) ∧
  (if bool_decide ("description" ∈ fields)
   then ∃ c, CharField_clean false None (post !! "description") = Some c ∧
             description todo =
               if description_has_default
                  && bool_decide (post !! "description" = None)
               then description instance else c
   else description todo = description instance) ∧
  (if bool_decide ("due_date" ∈ fields)
   then DateField_clean (post !! "due_date") = Some (due_date todo)
   else due_date todo = due_date instance) ∧
  resolved todo = (if bool_decide ("resolved" ∈ fields)
                   then BooleanField_clean (post !! "resolved")
                   else resolved instance) ∧
  created_at todo = created_at instance ∧
  updated_at todo = updated_at instance.
Proof.
  unfold ModelForm. intros Hform.
  destruct (bool_decide ("title" ∈ fields));
    destruct (bool_decide ("description" ∈ fields));
    destruct (bool_decide ("due_date" ∈ fields));
    repeat match type of Hform with
           | context [CharField_clean ?r ?m ?x] =>
               destruct (CharField_clean r m x); simpl in Hform; [|done]
           | context [DateField_clean ?x] =>
               destruct (DateField_clean x); simpl in Hform; [|done]
           end;
    simpl in Hform; injection Hform as <-; simpl; eauto 10.
Qed.

(** A form that validates hands back the instance it holds. *)
Lemma form_instance_valid fields post instance todo :
  ModelForm fields post instance = Some todo →
  form_instance fields post instance = todo.
Proof.
  intros Hform.
  destruct (ModelForm_Some _ _ _ _ Hform) as (Ht & Hd & Hdd & Hr & Hc & Hu).
  destruct todo as [t d dd r c u]. unfold form_instance. simpl in *.
  f_equal; try done.
  - destruct (bool_decide ("title" ∈ fields)); [by rewrite Ht|done].
  - destruct (bool_decide ("description" ∈ fields)); [|done].
    by destruct Hd as (c' & -> & ->).
  - destruct (bool_decide ("due_date" ∈ fields)); [by rewrite Hdd|done].
Qed.

Lemma ModelForm_title fields post instance todo :
  ModelForm fields post instance = Some todo →
  "title" ∈ fields ∨ title instance ≠ "" →
  title todo ≠ "".
Proof.
  intros Hform Htitle.
  destruct (ModelForm_Some _ _ _ _ Hform) as (Ht & _).
  destruct (bool_decide ("title" ∈ fields)) eqn:Hin.
  - by apply CharField_required_nonempty in Ht.
  - apply bool_decide_eq_false in Hin. rewrite Ht. by destruct Htitle.
Qed.

Lemma ModelForm_resolved_kept fields post instance todo :
  ModelForm fields post instance = Some todo →
  "resolved" ∉ fields →
  resolved todo = resolved instance.
Proof.
  intros Hform Hnot.
  destruct (ModelForm_Some _ _ _ _ Hform) as (_ & _ & _ & Hr & _).
  by rewrite (bool_decide_eq_false_2 _ Hnot) in Hr.
Qed.

(** ** The key sequence and the title invariant *)

Ltac by_route route :=
  destruct route;
  rewrite ?serve_list, ?serve_create, ?serve_update, ?serve_delete,
    ?serve_toggle;
  repeat case_match; simpl; try done.

Lemma serve_wf now route request db :
  db_wf db → db_wf (snd (serve now route request db)).
Proof.
  intros Hwf. by_route route; intros k [row Hk]; simpl in *.
  - destruct (decide (next_pk db = k)) as [<-|Hne]; [lia|].
    rewrite lookup_insert_ne in Hk by done.
    specialize (Hwf k (mk_is_Some _ _ Hk)). lia.
  - destruct (decide (pk = k)) as [<-|Hne]; [by apply Hwf|].
    rewrite lookup_insert_ne in Hk by done. by apply Hwf.
  - apply lookup_delete_Some in Hk as [_ Hk]. by apply Hwf.
  - destruct (decide (pk = k)) as [<-|Hne]; [by apply Hwf|].
    rewrite lookup_insert_ne in Hk by done. by apply Hwf.
Qed.

Lemma reachable_wf db : reachable db → db_wf db.
Proof.
  induction 1 as [|now route request db _ IH].
  - intros k [row Hk]. simpl in Hk. by rewrite lookup_empty in Hk.
  - by apply serve_wf.
Qed.

Lemma serve_titles_nonempty now route request db :
  titles_nonempty db → titles_nonempty (snd (serve now route request db)).
Proof.
  intros Hinv. by_route route; intros k row Hk; simpl in *.
  - destruct (decide (next_pk db = k)) as [<-|Hne].
    + rewrite lookup_insert_eq in Hk. injection Hk as <-. simpl.
      eapply ModelForm_title; [done|]. left. apply list_elem_of_here.
    + rewrite lookup_insert_ne in Hk by done. by eapply Hinv.
  - destruct (decide (pk = k)) as [<-|Hne].
    + rewrite lookup_insert_eq in Hk. injection Hk as <-. simpl.
      eapply ModelForm_title; [done|]. left. apply list_elem_of_here.
    + rewrite lookup_insert_ne in Hk by done. by eapply Hinv.
  - apply lookup_delete_Some in Hk as [_ Hk]. by eapply Hinv.
  - destruct (decide (pk = k)) as [<-|Hne].
    + rewrite lookup_insert_eq in Hk. injection Hk as <-. simpl.
      by eapply Hinv.
    + rewrite lookup_insert_ne in Hk by done. by eapply Hinv.
Qed.

(** ** The toggle action *)

(** C1.  For a stored Todo with key [pk], a request to the toggle route
    (a GET request in particular) answers with the redirect to the list
    page, and the table then holds under [pk] a row whose [resolved]
    flag is the negation of the previous one. *)
Theorem toggle_resolved_flips now request pk db todo :
  rows db !! pk = Some todo →
  ∃ db' todo',
    serve now (todo_toggle pk) request db
      = (HttpResponseRedirect todo_list, db') ∧
    rows db' !! pk = Some todo' ∧
    resolved todo' = negb (resolved todo).
Proof.
  intros Hpk. rewrite serve_toggle, Hpk.
  eexists _, _. split; [done|]. simpl. by rewrite lookup_insert_eq.
Qed.

(** C8.  Toggling a stored Todo twice in succession, at whatever two
    times and with whatever two requests, leaves its [resolved] flag as
    it was at the start. *)
Theorem toggle_resolved_involutive now1 now2 request1 request2 pk db todo :
  rows db !! pk = Some todo →
  let db1 := snd (serve now1 (todo_toggle pk) request1 db) in
  let db2 := snd (serve now2 (todo_toggle pk) request2 db1) in
  resolved <$> rows db2 !! pk = Some (resolved todo).
Proof.
  intros Hpk. simpl. rewrite (serve_toggle now1), Hpk. simpl.
  rewrite serve_toggle. simpl. rewrite lookup_insert_eq. simpl.
  rewrite lookup_insert_eq. simpl. by rewrite negb_involutive.
Qed.

(** C9.  The toggle action on a stored Todo keeps its title,
    description, due date and creation time, keeps the set of stored
    keys (no row is added or removed) and keeps every other row as it
    was. *)
Theorem toggle_resolved_frame now request pk db todo :
  rows db !! pk = Some todo →
  let db' := snd (serve now (todo_toggle pk) request db) in
  (∃ todo', rows db' !! pk = Some todo' ∧
            title todo' = title todo ∧
            description todo' = description todo ∧
            due_date todo' = due_date todo ∧
            created_at todo' = created_at todo) ∧
  dom (rows db') = dom (rows db) ∧
  (∀ pk', pk' ≠ pk → rows db' !! pk' = rows db !! pk') ∧
  next_pk db' = next_pk db.
Proof.
  intros Hpk. simpl. rewrite serve_toggle, Hpk. simpl.
  split; [|split; [|split]].
  - eexists. by rewrite lookup_insert_eq.
  - rewrite dom_insert_L. apply elem_of_dom_2 in Hpk.
    by apply subseteq_union_1_L, singleton_subseteq_l.
  - intros pk' Hne. by rewrite lookup_insert_ne.
  - done.
Qed.

(** ** Rejected submissions and missing rows *)

(** C2.  A POST to the create route whose data has no title, or an
    empty one, is answered with status 200 and leaves the table as it
    was. *)
Theorem create_without_title_rejected now request db :
  method request = POST →
  data request !! "title" = None ∨ data request !! "title" = Some "" →
  ∃ response,
    serve now todo_create request db = (response, db) ∧
    status_code response = 200.
Proof.
  intros Hm Htitle. rewrite serve_create, Hm.
  unfold ModelForm.
  rewrite (bool_decide_eq_true_2 ("title" ∈ _)) by apply list_elem_of_here.
  rewrite (CharField_required_missing _ _ Htitle). simpl. by eexists.
Qed.

(** C3.  When [pk] names no stored row, a request to the update, the
    delete or the toggle route for [pk] is answered with status 404 and
    leaves the table as it was. *)
Theorem missing_pk_not_found now request pk route db :
  rows db !! pk = None →
  route = todo_update pk ∨ route = todo_delete pk ∨ route = todo_toggle pk →
  ∃ response,
    serve now route request db = (response, db) ∧
    status_code response = 404.
Proof.
  intros Hpk [-> | [-> | ->]];
    rewrite ?serve_update, ?serve_delete, ?serve_toggle, Hpk; by eexists.
Qed.

(** ** The list *)

Lemma StronglySorted_lookup {A} (R : relation A) (l : list A) i j a b :
  StronglySorted R l → (i < j)%nat →
  l !! i = Some a → l !! j = Some b → R a b.
Proof.
  intros Hs. revert i j.
  induction Hs as [|x l Hs IH Hall]; intros i j Hij Hi Hj; [done|].
  destruct j as [|j]; [lia|]. destruct i as [|i]; simpl in *.
  - injection Hi as <-. rewrite Forall_forall in Hall.
    apply Hall. by eapply list_elem_of_lookup_2.
  - eapply (IH i j); [lia|done..].
Qed.

(** C4.  Whatever the table holds, the list page shows exactly the
    stored rows, and a row that comes earlier in the page was created
    no earlier than any row after it. *)
Theorem list_view_newest_first now request db :
  method request = GET →
  ∃ todos,
    serve now todo_list request db
      = (TemplateResponse "todos/todo_list.html" (ctx_todos todos), db) ∧
    todos ≡ₚ map_to_list (rows db) ∧
    ∀ i j a b, (i < j)%nat → todos !! i = Some a → todos !! j = Some b →
               created_at (snd b) ≤ created_at (snd a).
Proof.
  intros Hm. rewrite serve_list, Hm. eexists. split; [done|]. split.
  - apply merge_sort_Permutation.
  - intros i j a b Hij Hi Hj.
    eapply (StronglySorted_lookup newest_first); [|done..].
    apply (StronglySorted_merge_sort newest_first).
Qed.

(** ** Invariant, redirects and defaults *)

(** C5.  Every operation keeps the invariant that each stored row has a
    non-empty title, and so every row of every table the application
    can reach from the empty one has a non-empty title. *)
Theorem title_nonempty_invariant now route request db :
  (titles_nonempty db →
   titles_nonempty (snd (serve now route request db))) ∧
  (reachable db → titles_nonempty db).
Proof.
  split; [apply serve_titles_nonempty|].
  induction 1 as [|now' route' request' db' _ IH].
  - intros k row Hk. simpl in Hk. by rewrite lookup_empty in Hk.
  - by apply serve_titles_nonempty.
Qed.

(** C6.  A valid create submission, a valid update submission for a
    stored row, a delete execution for a stored row and a toggle of a
    stored row are each answered with the 302 redirect to the list
    page. *)
Theorem successful_mutation_redirects now request db :
  (method request = POST →
   is_valid ["title"; "description"; "due_date"] (data request) Todo_new →
   redirected_to_list (serve now todo_create request db)) ∧
  (∀ pk todo,
     method request = POST →
     rows db !! pk = Some todo →
     is_valid ["title"; "description"; "due_date"; "resolved"]
              (data request) todo →
     redirected_to_list (serve now (todo_update pk) request db)) ∧
  (∀ pk,
     method request = POST →
     is_Some (rows db !! pk) →
     redirected_to_list (serve now (todo_delete pk) request db)) ∧
  (∀ pk,
     is_Some (rows db !! pk) →
     redirected_to_list (serve now (todo_toggle pk) request db)).
Proof.
  unfold redirected_to_list, is_valid. split; [|split; [|split]].
  - intros Hm [object Hform]. by rewrite serve_create, Hm, Hform.
  - intros pk todo Hm Hpk [object Hform].
    by rewrite serve_update, Hpk, Hm, Hform.
  - intros pk Hm [todo Hpk]. by rewrite serve_delete, Hpk, Hm.
  - intros pk [todo Hpk]. by rewrite serve_toggle, Hpk.
Qed.

(** C7.  A valid create submission stores a new row under the next key
    (a key no stored row has); the new row is unresolved, its
    description is empty when none was submitted and it has no due date
    when none was submitted. *)
Theorem created_todo_defaults now request db :
  method request = POST →
  is_valid ["title"; "description"; "due_date"] (data request) Todo_new →
  ∃ todo,
    rows (snd (serve now todo_create request db)) !! next_pk db = Some todo ∧
    (db_wf db → rows db !! next_pk db = None) ∧
    resolved todo = false ∧
    (data request !! "description" = None → description todo = "") ∧
    (data request !! "due_date" = None → due_date todo = None).
Proof.
  intros Hm [object Hform]. rewrite serve_create, Hm, Hform. simpl.
  rewrite lookup_insert_eq. eexists. split; [done|].
  destruct (ModelForm_Some _ _ _ _ Hform) as (_ & Hd & Hdd & Hr & _).
  simpl in *. repeat split.
  - intros Hwf. destruct (rows db !! next_pk db) as [row|] eqn:Hrow; [|done].
    specialize (Hwf _ (mk_is_Some _ _ Hrow)). lia.
  - done.
  - intros Hnone. destruct Hd as (c & Hc & ->). rewrite Hnone in Hc |- *.
    injection Hc as <-. by destruct (_ && _).
  - intros Hnone. rewrite Hnone in Hdd. by injection Hdd as <-.
Qed.

(** C10.  Whatever a request to the create route submits, a row that
    the table holds afterwards and did not hold before is unresolved.
    On a table with a sound key sequence, no request other than a
    toggle or a POST to the update route changes the [resolved] flag of
    a stored row; a valid POST to the update route sets the flag to the
    submitted check box. *)
Theorem create_cannot_set_resolved now request db :
  (∀ pk todo,
     rows (snd (serve now todo_create request db)) !! pk = Some todo →
     rows db !! pk ≠ Some todo →
     resolved todo = false) ∧
  (∀ route pk old new,
     db_wf db →
     (∀ k, route ≠ todo_toggle k) →
     (∀ k, route = todo_update k → method request = GET) →
     rows db !! pk = Some old →
     rows (snd (serve now route request db)) !! pk = Some new →
     resolved new = resolved old) ∧
  (∀ pk old new,
     method request = POST →
     rows db !! pk = Some old →
     ModelForm ["title"; "description"; "due_date"; "resolved"]
               (data request) old = Some new →
     resolved <$> rows (snd (serve now (todo_update pk) request db)) !! pk
       = Some (BooleanField_clean (data request !! "resolved"))).
Proof.
  split; [|split].
  - intros pk todo. rewrite serve_create.
    destruct (method request); [done|].
    destruct (ModelForm _ _ _) as [object|] eqn:Hform; [|done]. simpl.
    destruct (decide (next_pk db = pk)) as [<-|Hne].
    + rewrite lookup_insert_eq. intros [= <-] _. simpl.
      by rewrite (ModelForm_resolved_kept _ _ _ _ Hform)
        by apply resolved_not_a_create_field.
    + by rewrite lookup_insert_ne.
  - intros route pk old new Hwf Htoggle Hupdate Hold.
    destruct route as [| |k|k|k].
    + rewrite serve_list. destruct (method request); simpl; congruence.
    + rewrite serve_create. destruct (method request); simpl; [congruence|].
      destruct (ModelForm _ _ _); simpl; [|congruence].
      rewrite lookup_insert_ne; [congruence|].
      specialize (Hwf pk (mk_is_Some _ _ Hold)). lia.
    + rewrite serve_update, (Hupdate k eq_refl).
      destruct (rows db !! k); simpl; congruence.
    + rewrite serve_delete. destruct (rows db !! k); [|simpl; congruence].
      destruct (method request); simpl; [congruence|].
      intros [_ Hnew]%lookup_delete_Some. congruence.
    + by destruct (Htoggle k).
  - intros pk old new Hm Hold Hform.
    rewrite serve_update, Hold, Hm, Hform. simpl.
    rewrite lookup_insert_eq. simpl.
    by destruct (ModelForm_Some _ _ _ _ Hform) as (_ & _ & _ & -> & _).
Qed.

(** ** Further properties of the views *)

Lemma CharField_clean_Some required max_length raw value :
  CharField_clean required max_length raw = Some value →
  value = strip (default "" raw).
Proof.
  unfold CharField_clean. case_decide as Hempty.
  - destruct required; [done|]. intros [= <-]. by rewrite Hempty.
  - destruct (has_null _); [done|].
    destruct max_length as [n|]; [case_decide; [done|]|]; by intros [= <-].
Qed.

Lemma lookup_fresh_key db : db_wf db → rows db !! next_pk db = None.
Proof.
  intros Hwf. destruct (rows db !! next_pk db) as [row|] eqn:Hrow; [|done].
  specialize (Hwf _ (mk_is_Some _ _ Hrow)). lia.
Qed.

(** X1.  A POST to the delete route of a stored row removes that row and
    no other: the key is free afterwards, every other key holds what it
    held, and the table has one row less. *)
Theorem delete_removes_row now request pk db todo :
  method request = POST →
  rows db !! pk = Some todo →
  let db' := snd (serve now (todo_delete pk) request db) in
  rows db' !! pk = None ∧
  (∀ k, k ≠ pk → rows db' !! k = rows db !! k) ∧
  dom (rows db') = dom (rows db) ∖ {[pk]} ∧
  S (size (rows db')) = size (rows db).
Proof.
  intros Hm Hpk. simpl. rewrite serve_delete, Hpk, Hm. simpl.
  split; [apply lookup_delete_eq|].
  split; [intros k Hne; by apply lookup_delete_ne|].
  split; [apply dom_delete_L|].
  rewrite map_size_delete_Some by done.
  assert (size (rows db) ≠ 0%nat) as Hsize.
  { intros Hz%map_size_empty_inv. rewrite Hz in Hpk.
    by rewrite lookup_empty in Hpk. }
  lia.
Qed.

(** X2.  A GET request to any route but the toggle leaves the table as it
    was. *)
Theorem get_leaves_table now route request db :
  method request = GET →
  (∀ pk, route ≠ todo_toggle pk) →
  snd (serve now route request db) = db.
Proof.
  intros Hm Htoggle. destruct route as [| |k|k|k].
  - by rewrite serve_list, Hm.
  - by rewrite serve_create, Hm.
  - rewrite serve_update, Hm. by destruct (rows db !! k).
  - rewrite serve_delete, Hm. by destruct (rows db !! k).
  - by destruct (Htoggle k).
Qed.

(** X3.  The toggle route changes the table on any request, a GET
    included: the row stored under the key afterwards is not the row
    that was there. *)
Theorem toggle_always_writes now request pk db todo :
  rows db !! pk = Some todo →
  rows (snd (serve now (todo_toggle pk) request db)) !! pk ≠ Some todo.
Proof.
  intros Hpk. rewrite serve_toggle, Hpk. simpl. rewrite lookup_insert_eq.
  intros [= Heq]. apply (f_equal resolved) in Heq. simpl in Heq.
  by destruct (resolved todo).
Qed.

(** X4.  The table changes only together with a redirect: whenever the
    answer has a status other than 302, the table is as it was. *)
Theorem table_changes_only_on_redirect now route request db :
  status_code (fst (serve now route request db)) ≠ 302 →
  snd (serve now route request db) = db.
Proof.
  by_route route; intros Hstatus; by destruct Hstatus.
Qed.

(** X5.  On the update, delete and toggle routes the answer is 404
    exactly when the key names no stored row. *)
Theorem not_found_iff_missing now request pk route db :
  route = todo_update pk ∨ route = todo_delete pk ∨ route = todo_toggle pk →
  status_code (fst (serve now route request db)) = 404 ↔ rows db !! pk = None.
Proof.
  intros [-> | [-> | ->]];
    rewrite ?serve_update, ?serve_delete, ?serve_toggle;
    destruct (rows db !! pk); repeat case_match; simpl; split; done.
Qed.

(** X6.  A valid POST to the update route of a stored row writes the
    submitted title (trimmed) and check box into that row, stamps
    [updated_at] with the time of the request, keeps [created_at], and
    touches neither the set of keys nor any other row. *)
Theorem update_sets_fields now request pk db old new :
  method request = POST →
  rows db !! pk = Some old →
  ModelForm ["title"; "description"; "due_date"; "resolved"]
            (data request) old = Some new →
  let db' := snd (serve now (todo_update pk) request db) in
  (∃ row, rows db' !! pk = Some row ∧
          title row = strip (default "" (data request !! "title")) ∧
          resolved row = BooleanField_clean (data request !! "resolved") ∧
          created_at row = created_at old ∧
          updated_at row = now) ∧
  dom (rows db') = dom (rows db) ∧
  (∀ k, k ≠ pk → rows db' !! k = rows db !! k).
Proof.
  intros Hm Hpk Hform. simpl. rewrite serve_update, Hpk, Hm, Hform. simpl.
  destruct (ModelForm_Some _ _ _ _ Hform) as (Ht & _ & _ & Hr & Hc & _).
  simpl in Ht. apply CharField_clean_Some in Ht.
  split; [|split].
  - eexists. rewrite lookup_insert_eq. split; [done|]. simpl. by rewrite Hr.
  - rewrite dom_insert_L. apply elem_of_dom_2 in Hpk.
    by apply subseteq_union_1_L, singleton_subseteq_l.
  - intros k Hne. by rewrite lookup_insert_ne.
Qed.

(** X7.  A POST to the update route of a stored row whose data has no
    title, or an empty one, is answered with status 200 and leaves the
    table, the stored row included, as it was. *)
Theorem update_without_title_rejected now request pk db old :
  method request = POST →
  rows db !! pk = Some old →
  data request !! "title" = None ∨ data request !! "title" = Some "" →
  ∃ response,
    serve now (todo_update pk) request db = (response, db) ∧
    status_code response = 200.
Proof.
  intros Hm Hpk Htitle. rewrite serve_update, Hpk, Hm.
  unfold ModelForm.
  rewrite (bool_decide_eq_true_2 ("title" ∈ _)) by apply list_elem_of_here.
  rewrite (CharField_required_missing _ _ Htitle). simpl. by eexists.
Qed.

(** X8.  On a table with a sound key sequence, a valid POST to the create
    route adds exactly one row: every row stored before is still there,
    the table has one row more, and the new row carries the submitted
    title with the white space around it trimmed. *)
Theorem create_adds_one_row now request db :
  db_wf db →
  method request = POST →
  is_valid ["title"; "description"; "due_date"] (data request) Todo_new →
  let db' := snd (serve now todo_create request db) in
  size (rows db') = S (size (rows db)) ∧
  (∀ k row, rows db !! k = Some row → rows db' !! k = Some row) ∧
  ∃ todo, rows db' !! next_pk db = Some todo ∧
          title todo = strip (default "" (data request !! "title")).
Proof.
  intros Hwf Hm [object Hform]. simpl. rewrite serve_create, Hm, Hform. simpl.
  pose proof (lookup_fresh_key _ Hwf) as Hfresh.
  split; [by apply map_size_insert_None|]. split.
  - intros k row Hk. rewrite lookup_insert_ne; [done|]. congruence.
  - eexists. rewrite lookup_insert_eq. split; [done|]. simpl.
    destruct (ModelForm_Some _ _ _ _ Hform) as (Ht & _).
    simpl in Ht. by apply CharField_clean_Some in Ht.
Qed.

(** X9.  On a table with a sound key sequence, creating a row and then
    deleting it gives back the rows the table had. *)
Theorem create_then_delete_restores now1 now2 request1 request2 db :
  db_wf db →
  method request1 = POST →
  is_valid ["title"; "description"; "due_date"] (data request1) Todo_new →
  method request2 = POST →
  let db1 := snd (serve now1 todo_create request1 db) in
  let db2 := snd (serve now2 (todo_delete (next_pk db)) request2 db1) in
  rows db2 = rows db.
Proof.
  intros Hwf Hm1 [object Hform] Hm2. simpl.
  rewrite serve_create, Hm1, Hform. simpl.
  rewrite serve_delete. simpl. rewrite lookup_insert_eq, Hm2. simpl.
  by apply delete_insert_id, lookup_fresh_key.
Qed.

(** X10.  Two toggles of a stored row in succession leave the whole row
    as it was, apart from [updated_at], which is the time of the second
    toggle; no other row changes. *)
Theorem toggle_twice_restores_row now1 now2 request1 request2 pk db todo :
  rows db !! pk = Some todo →
  let db1 := snd (serve now1 (todo_toggle pk) request1 db) in
  let db2 := snd (serve now2 (todo_toggle pk) request2 db1) in
  rows db2 = <[pk := set_updated_at now2 todo]> (rows db).
Proof.
  intros Hpk. simpl. rewrite (serve_toggle now1), Hpk. simpl.
  rewrite serve_toggle. simpl. rewrite lookup_insert_eq. simpl.
  rewrite insert_insert_eq. f_equal.
  unfold set_updated_at, set_resolved. simpl. by rewrite negb_involutive.
Qed.

(** X11.  A row that a valid create submission has just stored is
    resolved after one toggle of its key. *)
Theorem create_then_toggle_resolves now1 now2 request1 request2 db :
  method request1 = POST →
  is_valid ["title"; "description"; "due_date"] (data request1) Todo_new →
  let db1 := snd (serve now1 todo_create request1 db) in
  let db2 := snd (serve now2 (todo_toggle (next_pk db)) request2 db1) in
  resolved <$> rows db2 !! next_pk db = Some true.
Proof.
  intros Hm [object Hform]. simpl. rewrite serve_create, Hm, Hform. simpl.
  rewrite serve_toggle. simpl. rewrite lookup_insert_eq. simpl.
  rewrite lookup_insert_eq. simpl.
  by rewrite (ModelForm_resolved_kept _ _ _ _ Hform)
    by apply resolved_not_a_create_field.
Qed.

(** X12.  A GET to the list route is answered with status 200 and the
    list template, leaves the table as it was, and lists each stored row
    once under its key: as many entries as rows, no key twice, and an
    entry is listed exactly when the table holds it. *)
Theorem list_view_shows_every_row now request db :
  method request = GET →
  ∃ todos,
    serve now todo_list request db
      = (TemplateResponse "todos/todo_list.html" (ctx_todos todos), db) ∧
    status_code (fst (serve now todo_list request db)) = 200 ∧
    length todos = size (rows db) ∧
    NoDup (todos.*1) ∧
    ∀ pk todo, (pk, todo) ∈ todos ↔ rows db !! pk = Some todo.
Proof.
  intros Hm. rewrite serve_list, Hm. eexists. split; [done|].
  pose proof (merge_sort_Permutation newest_first (map_to_list (rows db)))
    as Hperm.
  fold (objects_all db) in Hperm.
  split; [done|]. split; [|split].
  - by rewrite Hperm, length_map_to_list.
  - rewrite Hperm. apply NoDup_fst_map_to_list.
  - intros pk todo. rewrite Hperm. apply elem_of_map_to_list.
Qed.

(** X13.  On a table with a sound key sequence no request changes the
    creation time of a stored row: if the key holds a row before and
    after, the two rows have the same [created_at]. *)
Theorem created_at_never_changes now route request db pk old new :
  db_wf db →
  rows db !! pk = Some old →
  rows (snd (serve now route request db)) !! pk = Some new →
  created_at new = created_at old.
Proof.
  intros Hwf Hold. destruct route as [| |k|k|k].
  - rewrite serve_list. destruct (method request); simpl; congruence.
  - rewrite serve_create. destruct (method request); simpl; [congruence|].
    destruct (ModelForm _ _ _); simpl; [|congruence].
    rewrite lookup_insert_ne; [congruence|].
    specialize (Hwf pk (mk_is_Some _ _ Hold)). lia.
  - rewrite serve_update.
    destruct (rows db !! k) as [object|] eqn:Hk; simpl; [|congruence].
    destruct (method request); simpl; [congruence|].
    destruct (ModelForm _ _ object) as [object'|] eqn:Hform; simpl;
      [|congruence].
    destruct (decide (k = pk)) as [->|Hne].
    + rewrite lookup_insert_eq. intros [= <-]. simpl.
      destruct (ModelForm_Some _ _ _ _ Hform) as (_ & _ & _ & _ & -> & _).
      congruence.
    + rewrite lookup_insert_ne by done. congruence.
  - rewrite serve_delete. destruct (rows db !! k); [|simpl; congruence].
    destruct (method request); simpl; [congruence|].
    intros [_ Hnew]%lookup_delete_Some. congruence.
  - rewrite serve_toggle.
    destruct (rows db !! k) as [todo|] eqn:Hk; simpl; [|congruence].
    destruct (decide (k = pk)) as [->|Hne].
    + rewrite lookup_insert_eq. intros [= <-]. simpl. congruence.
    + rewrite lookup_insert_ne by done. congruence.
Qed.

(** X14.  The create route reads only the title, the description and the
    due date of what is submitted: two requests of the same method that
    agree on these three values get the same answer and leave the same
    table, whatever else they carry. *)
Theorem create_reads_only_its_fields now request1 request2 db :
  method request1 = method request2 →
  data request1 !! "title" = data request2 !! "title" →
  data request1 !! "description" = data request2 !! "description" →
  data request1 !! "due_date" = data request2 !! "due_date" →
  serve now todo_create request1 db = serve now todo_create request2 db.
Proof.
  intros Hm Ht Hd Hdd. rewrite !serve_create, Hm.
  assert (ModelForm ["title"; "description"; "due_date"] (data request1) Todo_new
          = ModelForm ["title"; "description"; "due_date"] (data request2) Todo_new)
    as ->; [|done].
  unfold ModelForm. rewrite Ht, Hd, Hdd.
  by rewrite (bool_decide_eq_false_2 ("resolved" ∈ _))
    by apply resolved_not_a_create_field.
Qed.

End Application.

(** ** The theorems at the fixtures of [tests.py]

    The title bound is taken as 200, [description] as declared without an
    explicit default, and dates are read by [sample_parse_date]. *)

Lemma toggle_resolved_flips_witness :
  rows sample_db !! 1 = Some sample_todo ∧
  ∃ db' todo',
    serve 200 false sample_parse_date 30 (todo_toggle 1) get_request sample_db
      = (HttpResponseRedirect todo_list, db') ∧
    rows db' !! 1 = Some todo' ∧
    resolved todo' = negb (resolved sample_todo).
Proof.
  split; [reflexivity|].
  apply (toggle_resolved_flips 200 false sample_parse_date 30 get_request 1
           sample_db sample_todo).
  reflexivity.
Defined.

Lemma toggle_resolved_involutive_witness :
  rows sample_db !! 1 = Some sample_todo ∧
  resolved <$>
    rows (snd (serve 200 false sample_parse_date 40 (todo_toggle 1) post_empty
            (snd (serve 200 false sample_parse_date 30 (todo_toggle 1)
                    get_request sample_db)))) !! 1
  = Some (resolved sample_todo).
Proof.
  split; [reflexivity|].
  apply (toggle_resolved_involutive 200 false sample_parse_date 30 40
           get_request post_empty 1 sample_db sample_todo).
  reflexivity.
Defined.

Lemma toggle_resolved_frame_witness :
  rows sample_db !! 1 = Some sample_todo ∧
  let db' := snd (serve 200 false sample_parse_date 30 (todo_toggle 1)
                    get_request sample_db) in
  (∃ todo', rows db' !! 1 = Some todo' ∧
            title todo' = title sample_todo ∧
            description todo' = description sample_todo ∧
            due_date todo' = due_date sample_todo ∧
            created_at todo' = created_at sample_todo) ∧
  dom (rows db') = dom (rows sample_db) ∧
  (∀ pk', pk' ≠ 1 → rows db' !! pk' = rows sample_db !! pk') ∧
  next_pk db' = next_pk sample_db.
Proof.
  split; [reflexivity|].
  apply (toggle_resolved_frame 200 false sample_parse_date 30 get_request 1
           sample_db sample_todo).
  reflexivity.
Defined.

Lemma create_without_title_rejected_witness :
  method post_no_title = POST ∧
  data post_no_title !! "title" = None ∧
  ∃ response,
    serve 200 false sample_parse_date 30 todo_create post_no_title empty_db
      = (response, empty_db) ∧
    status_code response = 200.
Proof.
  split; [reflexivity|]. split; [reflexivity|].
  apply (create_without_title_rejected 200 false sample_parse_date 30
           post_no_title empty_db); [reflexivity|].
  left. reflexivity.
Defined.

Lemma missing_pk_not_found_witness :
  rows sample_db !! 9999 = None ∧
  ∃ response,
    serve 200 false sample_parse_date 30 (todo_delete 9999) get_request
      sample_db = (response, sample_db) ∧
    status_code response = 404.
Proof.
  split; [reflexivity|].
  apply (missing_pk_not_found 200 false sample_parse_date 30 get_request 9999
           (todo_delete 9999) sample_db); [reflexivity|].
  right. left. reflexivity.
Defined.

Lemma list_view_newest_first_witness :
  method get_request = GET ∧
  ∃ todos,
    serve 200 false sample_parse_date 40 todo_list get_request ordering_db
      = (TemplateResponse "todos/todo_list.html" (ctx_todos todos),
         ordering_db) ∧
    todos.*1 = [2; 3; 1] ∧
    todos ≡ₚ map_to_list (rows ordering_db) ∧
    ∀ i j a b, (i < j)%nat → todos !! i = Some a → todos !! j = Some b →
               created_at (snd b) ≤ created_at (snd a).
Proof.
  split; [reflexivity|].
  destruct (list_view_newest_first 200 false sample_parse_date 40 get_request
              ordering_db eq_refl) as (todos & Hserve & Hperm & Horder).
  exists todos. split; [exact Hserve|].
  split; [|split; [exact Hperm|exact Horder]].
  vm_compute in Hserve. injection Hserve as Htodos. rewrite <- Htodos.
  reflexivity.
Defined.

Lemma title_nonempty_invariant_witness :
  let db := snd (serve 200 false sample_parse_date 30 todo_create post_minimal
                   empty_db) in
  reachable 200 false sample_parse_date db ∧ titles_nonempty db.
Proof.
  assert (Hreach : reachable 200 false sample_parse_date
            (snd (serve 200 false sample_parse_date 30 todo_create post_minimal
                    empty_db)))
    by apply reachable_serve, reachable_empty.
  split; [exact Hreach|].
  exact (proj2 (title_nonempty_invariant 200 false sample_parse_date 30
                  todo_list get_request _) Hreach).
Defined.

Lemma successful_mutation_redirects_witness :
  redirected_to_list
    (serve 200 false sample_parse_date 30 todo_create post_minimal sample_db) ∧
  redirected_to_list
    (serve 200 false sample_parse_date 30 (todo_update 1) post_minimal
       sample_db) ∧
  redirected_to_list
    (serve 200 false sample_parse_date 30 (todo_delete 1) post_minimal
       sample_db) ∧
  redirected_to_list
    (serve 200 false sample_parse_date 30 (todo_toggle 1) post_minimal
       sample_db).
Proof.
  destruct (successful_mutation_redirects 200 false sample_parse_date 30
              post_minimal sample_db) as (Hcreate & Hupdate & Hdelete & Htoggle).
  split; [|split; [|split]].
  - apply Hcreate; [reflexivity|]. vm_compute. eexists. reflexivity.
  - apply (Hupdate 1 sample_todo); [reflexivity|reflexivity|].
    vm_compute. eexists. reflexivity.
  - apply (Hdelete 1); [reflexivity|]. vm_compute. eexists. reflexivity.
  - apply (Htoggle 1). vm_compute. eexists. reflexivity.
Defined.

Lemma created_todo_defaults_witness :
  method post_minimal = POST ∧
  data post_minimal !! "description" = None ∧
  data post_minimal !! "due_date" = None ∧
  ∃ todo,
    rows (snd (serve 200 false sample_parse_date 30 todo_create post_minimal
                 sample_db)) !! 2 = Some todo ∧
    resolved todo = false ∧ description todo = "" ∧ due_date todo = None.
Proof.
  split; [reflexivity|]. split; [reflexivity|]. split; [reflexivity|].
  destruct (created_todo_defaults 200 false sample_parse_date 30 post_minimal
              sample_db) as (todo & Hrow & _ & Hr & Hd & Hdd).
  - reflexivity.
  - vm_compute. eexists. reflexivity.
  - exists todo. split; [exact Hrow|]. split; [exact Hr|].
    split; [apply Hd|apply Hdd]; reflexivity.
Defined.

Lemma create_cannot_set_resolved_witness :
  data post_resolved !! "resolved" = Some "True" ∧
  ∃ todo,
    rows (snd (serve 200 false sample_parse_date 30 todo_create post_resolved
                 sample_db)) !! 2 = Some todo ∧
    rows sample_db !! 2 ≠ Some todo ∧
    resolved todo = false.
Proof.
  split; [reflexivity|]. eexists.
  split; [vm_compute; reflexivity|]. split; [vm_compute; discriminate|].
  apply (proj1 (create_cannot_set_resolved 200 false sample_parse_date 30
                  post_resolved sample_db) 2).
  - vm_compute. reflexivity.
  - vm_compute. discriminate.
Defined.

(** ** The further properties at the same fixtures *)

Lemma delete_removes_row_witness :
  method post_empty = POST ∧
  rows sample_db !! 1 = Some sample_todo ∧
  let db' := snd (serve 200 false sample_parse_date 30 (todo_delete 1)
                    post_empty sample_db) in
  rows db' !! 1 = None ∧
  (∀ k, k ≠ 1 → rows db' !! k = rows sample_db !! k) ∧
  dom (rows db') = dom (rows sample_db) ∖ {[1]} ∧
  S (size (rows db')) = size (rows sample_db).
Proof.
  split; [reflexivity|]. split; [reflexivity|].
  apply (delete_removes_row 200 false sample_parse_date 30 post_empty 1
           sample_db sample_todo); reflexivity.
Defined.

Lemma get_leaves_table_witness :
  method get_request = GET ∧
  snd (serve 200 false sample_parse_date 30 (todo_delete 1) get_request
         sample_db) = sample_db.
Proof.
  split; [reflexivity|].
  apply (get_leaves_table 200 false sample_parse_date 30 (todo_delete 1)
           get_request sample_db); [reflexivity|].
  intros pk. discriminate.
Defined.

Lemma toggle_always_writes_witness :
  rows sample_db !! 1 = Some sample_todo ∧
  rows (snd (serve 200 false sample_parse_date 30 (todo_toggle 1) get_request
               sample_db)) !! 1 ≠ Some sample_todo.
Proof.
  split; [reflexivity|].
  apply (toggle_always_writes 200 false sample_parse_date 30 get_request 1
           sample_db sample_todo).
  reflexivity.
Defined.

Lemma table_changes_only_on_redirect_witness :
  status_code (fst (serve 200 false sample_parse_date 30 todo_create
                      post_no_title sample_db)) ≠ 302 ∧
  snd (serve 200 false sample_parse_date 30 todo_create post_no_title
         sample_db) = sample_db.
Proof.
  assert (status_code (fst (serve 200 false sample_parse_date 30 todo_create
                              post_no_title sample_db)) ≠ 302) as Hstatus
    by (vm_compute; discriminate).
  split; [exact Hstatus|].
  exact (table_changes_only_on_redirect 200 false sample_parse_date 30
           todo_create post_no_title sample_db Hstatus).
Defined.

Lemma not_found_iff_missing_witness :
  rows sample_db !! 9999 = None ∧
  status_code (fst (serve 200 false sample_parse_date 30 (todo_update 9999)
                      post_minimal sample_db)) = 404.
Proof.
  split; [reflexivity|].
  apply (not_found_iff_missing 200 false sample_parse_date 30 post_minimal
           9999 (todo_update 9999) sample_db); [left|]; reflexivity.
Defined.

Lemma update_sets_fields_witness :
  method post_padded = POST ∧
  rows sample_db !! 1 = Some sample_todo ∧
  ∃ row,
    rows (snd (serve 200 false sample_parse_date 30 (todo_update 1)
                 post_padded sample_db)) !! 1 = Some row ∧
    title row = "hi" ∧ resolved row = true ∧
    created_at row = 10 ∧ updated_at row = 30.
Proof.
  split; [reflexivity|]. split; [reflexivity|].
  destruct (update_sets_fields 200 false sample_parse_date 30 post_padded 1
              sample_db sample_todo
              {| title := "hi"; description := ""; due_date := None;
                 resolved := true; created_at := 10; updated_at := 10 |})
    as ((row & Hrow & Ht & Hr & Hc & Hu) & _); [reflexivity..|].
  exists row. split; [exact Hrow|]. split; [exact Ht|]. split; [exact Hr|].
  split; [exact Hc|exact Hu].
Defined.

Lemma update_without_title_rejected_witness :
  method post_no_title = POST ∧
  rows sample_db !! 1 = Some sample_todo ∧
  data post_no_title !! "title" = None ∧
  ∃ response,
    serve 200 false sample_parse_date 30 (todo_update 1) post_no_title
      sample_db = (response, sample_db) ∧
    status_code response = 200.
Proof.
  split; [reflexivity|]. split; [reflexivity|]. split; [reflexivity|].
  apply (update_without_title_rejected 200 false sample_parse_date 30
           post_no_title 1 sample_db sample_todo); [reflexivity..|].
  left. reflexivity.
Defined.

Lemma sample_db_wf : db_wf sample_db.
Proof.
  intros k [row Hk]. simpl in Hk.
  apply lookup_singleton_Some in Hk as [<- _]. simpl. lia.
Qed.

Lemma create_adds_one_row_witness :
  db_wf sample_db ∧
  method post_padded = POST ∧
  let db' := snd (serve 200 false sample_parse_date 30 todo_create post_padded
                    sample_db) in
  size (rows db') = S (size (rows sample_db)) ∧
  (∀ k row, rows sample_db !! k = Some row → rows db' !! k = Some row) ∧
  ∃ todo, rows db' !! 2 = Some todo ∧ title todo = "hi".
Proof.
  split; [exact sample_db_wf|]. split; [reflexivity|].
  apply (create_adds_one_row 200 false sample_parse_date 30 post_padded
           sample_db); [exact sample_db_wf|reflexivity|].
  vm_compute. eexists. reflexivity.
Defined.

Lemma create_then_delete_restores_witness :
  db_wf sample_db ∧
  method post_minimal = POST ∧
  method post_empty = POST ∧
  rows (snd (serve 200 false sample_parse_date 40 (todo_delete 2) post_empty
               (snd (serve 200 false sample_parse_date 30 todo_create
                       post_minimal sample_db))))
  = rows sample_db.
Proof.
  split; [exact sample_db_wf|]. split; [reflexivity|]. split; [reflexivity|].
  apply (create_then_delete_restores 200 false sample_parse_date 30 40
           post_minimal post_empty sample_db);
    [exact sample_db_wf|reflexivity| |reflexivity].
  vm_compute. eexists. reflexivity.
Defined.

Lemma toggle_twice_restores_row_witness :
  rows sample_db !! 1 = Some sample_todo ∧
  rows (snd (serve 200 false sample_parse_date 40 (todo_toggle 1) post_empty
               (snd (serve 200 false sample_parse_date 30 (todo_toggle 1)
                       get_request sample_db))))
  = <[1 := set_updated_at 40 sample_todo]> (rows sample_db).
Proof.
  split; [reflexivity|].
  apply (toggle_twice_restores_row 200 false sample_parse_date 30 40
           get_request post_empty 1 sample_db sample_todo).
  reflexivity.
Defined.

Lemma create_then_toggle_resolves_witness :
  method post_minimal = POST ∧
  resolved <$>
    rows (snd (serve 200 false sample_parse_date 40 (todo_toggle 2) get_request
                 (snd (serve 200 false sample_parse_date 30 todo_create
                         post_minimal sample_db)))) !! 2
  = Some true.
Proof.
  split; [reflexivity|].
  apply (create_then_toggle_resolves 200 false sample_parse_date 30 40
           post_minimal get_request sample_db); [reflexivity|].
  vm_compute. eexists. reflexivity.
Defined.

Lemma list_view_shows_every_row_witness :
  method get_request = GET ∧
  ∃ todos,
    serve 200 false sample_parse_date 30 todo_list get_request sample_db
      = (TemplateResponse "todos/todo_list.html" (ctx_todos todos), sample_db) ∧
    status_code (fst (serve 200 false sample_parse_date 30 todo_list
                        get_request sample_db)) = 200 ∧
    length todos = size (rows sample_db) ∧
    NoDup (todos.*1) ∧
    ∀ pk todo, (pk, todo) ∈ todos ↔ rows sample_db !! pk = Some todo.
Proof.
  split; [reflexivity|].
  apply (list_view_shows_every_row 200 false sample_parse_date 30 get_request
           sample_db).
  reflexivity.
Defined.

Lemma created_at_never_changes_witness :
  db_wf sample_db ∧
  rows sample_db !! 1 = Some sample_todo ∧
  ∃ new,
    rows (snd (serve 200 false sample_parse_date 30 (todo_update 1)
                 post_resolved sample_db)) !! 1 = Some new ∧
    updated_at new = 30 ∧
    created_at new = created_at sample_todo.
Proof.
  split; [exact sample_db_wf|]. split; [reflexivity|].
  eexists. split; [vm_compute; reflexivity|]. split; [reflexivity|].
  apply (created_at_never_changes 200 false sample_parse_date 30 (todo_update 1)
           post_resolved sample_db 1 sample_todo);
    [exact sample_db_wf|reflexivity|vm_compute; reflexivity].
Defined.

Lemma create_reads_only_its_fields_witness :
  method post_minimal = method post_minimal_checked ∧
  data post_minimal !! "resolved" ≠ data post_minimal_checked !! "resolved" ∧
  serve 200 false sample_parse_date 30 todo_create post_minimal sample_db
  = serve 200 false sample_parse_date 30 todo_create post_minimal_checked
      sample_db.
Proof.
  split; [reflexivity|]. split; [vm_compute; discriminate|].
  apply (create_reads_only_its_fields 200 false sample_parse_date 30
           post_minimal post_minimal_checked sample_db); reflexivity.
Defined.
